(** * Recommenders quick-start sources: nightly pipeline and frozen-graph serving

    The sources are a CI pipeline definition (the nightly Windows CPU job)
    and two example notebooks.  Two pieces of them carry behaviour of their
    own and are embedded here:

    - [Pipeline]: the steps of the nightly job, their run conditions, and
      the two [pytest] invocations of the 'Run Tests' step with their
      [-m] marker expressions;
    - [Serving]: the notebook class [LoadFrozedPredModel], the notebook
      function [infer_as_serving] and the cell that drives them, over an
      abstract interface for the training framework (graph, session,
      iterator) and a file system.  *)

From Stdlib Require Import String Ascii List Bool Arith Lia.
From stdpp Require Import base option list strings gmap fin_maps.
Import ListNotations.

Local Open Scope string_scope.

(** ** Text helpers shared by both parts *)

Definition newline : ascii := ascii_of_nat 10.
Definition space : ascii := ascii_of_nat 32.



(** * The nightly pipeline *)

Module Pipeline.

(** ** pytest marker expressions ([-m]) *)

Inductive token :=
| TAnd | TOr | TNot | TLParen | TRParen
| TIdent (name : string).

Inductive mexpr :=
| MIdent (name : string)
| MNot (e : mexpr)
| MAnd (a b : mexpr)
| MOr (a b : mexpr).

Definition word_token (w : string) : token :=
  if String.eqb w "and" then TAnd
  else if String.eqb w "or" then TOr
  else if String.eqb w "not" then TNot
  else TIdent w.

Definition flush (w : string) (acc : list token) : list token :=
  match w with
  | EmptyString => acc
  | _ => (acc ++ [word_token w])%list
  end.

(** Words are separated by blanks; parentheses are tokens of their own. *)
Fixpoint lex (w : string) (acc : list token) (s : string) : list token :=
  match s with
  | EmptyString => flush w acc
  | String c s' =>
      if Ascii.eqb c space then lex EmptyString (flush w acc) s'
      else if Ascii.eqb c "("%char then lex EmptyString (flush w acc ++ [TLParen])%list s'
      else if Ascii.eqb c ")"%char then lex EmptyString (flush w acc ++ [TRParen])%list s'
      else lex (w ++ String c EmptyString) acc s'
  end.

(** The grammar of marker expressions:
<<
    expr     := and_expr ('or' and_expr)*
    and_expr := not_expr ('and' not_expr)*
    not_expr := 'not' not_expr | '(' expr ')' | ident
>>
    as a recursive-descent parser; the fuel bounds the recursion depth. *)
Inductive goal :=
| GExpr
| GOrTail (e : mexpr)
| GAnd
| GAndTail (e : mexpr)
| GNot.

Fixpoint parse (fuel : nat) (g : goal) (ts : list token)
  : option (mexpr * list token) :=
  match fuel with
  | O => None
  | S n =>
      match g with
      | GExpr =>
          match parse n GAnd ts with
          | Some (e, r) => parse n (GOrTail e) r
          | None => None
          end
      | GOrTail e =>
          match ts with
          | TOr :: r =>
              match parse n GAnd r with
              | Some (e', r') => parse n (GOrTail (MOr e e')) r'
              | None => None
              end
          | _ => Some (e, ts)
          end
      | GAnd =>
          match parse n GNot ts with
          | Some (e, r) => parse n (GAndTail e) r
          | None => None
          end
      | GAndTail e =>
          match ts with
          | TAnd :: r =>
              match parse n GNot r with
              | Some (e', r') => parse n (GAndTail (MAnd e e')) r'
              | None => None
              end
          | _ => Some (e, ts)
          end
      | GNot =>
          match ts with
          | TNot :: r =>
              match parse n GNot r with
              | Some (e, r') => Some (MNot e, r')
              | None => None
              end
          | TLParen :: r =>
              match parse n GExpr r with
              | Some (e, TRParen :: r') => Some (e, r')
              | _ => None
              end
          | TIdent name :: r => Some (MIdent name, r)
          | _ => None
          end
      end
  end.

Definition compile_marker (m : string) : option mexpr :=
  let ts := lex EmptyString [] m in
  match parse (4 * length ts + 4) GExpr ts with
  | Some (e, []) => Some e
  | _ => None
  end.

(** ** Tests and selection *)

Record test := {
  nodeid : string;          (* path of the test, from the repository root *)
  markers : list string;    (* names of the pytest marks it carries *)
}.

Definition has_marker (name : string) (t : test) : bool :=
  existsb (String.eqb name) (markers t).

Fixpoint eval (e : mexpr) (t : test) : bool :=
  match e with
  | MIdent name => has_marker name t
  | MNot a => negb (eval a t)
  | MAnd a b => eval a t && eval b t
  | MOr a b => eval a t || eval b t
  end.

(** [pytest DIR]: the tests collected are those below [DIR]. *)
Definition collected (dir : string) (t : test) : bool :=
  String.prefix (dir ++ "/") (nodeid t).

(** ** Steps *)

Inductive command :=
| Cmd (line : string)
| Echo (text : string)
| Pytest (testpath : string) (durations : nat) (m : string) (junitxml : string).

Inductive condition := Succeeded | SucceededOrFailed | Always.

Inductive action :=
| Script (body : list command)
| Task (name : string) (inputs : list (string * string)).

Record step := {
  run : action;
  displayName : string;
  workingDirectory : option string;
  continueOnError : bool;
  cond : condition;   (* [Succeeded] when the step gives none *)
}.

Definition remove_env_body : list command :=
  [ Cmd "call conda env remove -n nightly_reco_base -y";
    Cmd "if exist C:\Anaconda\envs\nightly_reco_base rmdir /s /q C:\Anaconda\envs\nightly_reco_base" ].

Definition remove_conda_env : step :=
  {| run := Script remove_env_body;
     displayName := "Remove Conda Env if it exists";
     workingDirectory := None; continueOnError := false; cond := Succeeded |}.

Definition setup_conda_env : step :=
  {| run := Script
       [ Cmd "python ./tools/generate_conda_file.py --name nightly_reco_base";
         Cmd "call conda env create -f nightly_reco_base.yaml" ];
     displayName := "Setup Conda Env";
     workingDirectory := None; continueOnError := false; cond := Succeeded |}.

Definition smoke_marker : string := "smoke and not spark and not gpu".
Definition integration_marker : string := "integration and not spark and not gpu".

Definition run_tests : step :=
  {| run := Script
       [ Cmd "call conda activate nightly_reco_base";
         Echo "Smoke tests";
         Pytest "tests/smoke" 0 smoke_marker "reports/test-smoke.xml";
         Echo "Integration tests";
         Pytest "tests/integration" 0 integration_marker "reports/test-integration.xml" ];
     displayName := "Run Tests";
     workingDirectory := None; continueOnError := false; cond := Succeeded |}.

Definition publish_test_results : step :=
  {| run := Task "PublishTestResults@2"
       [ ("testResultsFiles", "**/test-*.xml");
         ("failTaskOnFailedTests", "true") ];
     displayName := "Publish Test Results ";
     workingDirectory := None; continueOnError := false;
     cond := SucceededOrFailed |}.

Definition conda_remove : step :=
  {| run := Script remove_env_body;
     displayName := "Conda remove";
     workingDirectory := Some "tests"; continueOnError := true;
     cond := Always |}.

Definition remove_temp_files : step :=
  {| run := Script
       [ Cmd "del /q /S %LOCALAPPDATA%\Temp\*";
         (* the source quotes the last argument of rmdir *)
         Cmd "for /d %%i in (%LOCALAPPDATA%\Temp\*) do @rmdir /s /q %%i" ];
     displayName := "Remove Temp Files";
     workingDirectory := None; continueOnError := false;
     cond := SucceededOrFailed |}.

Record job := {
  job_name : string;
  job_displayName : string;
  timeoutInMinutes : nat;   (* the job is cancelled after that long *)
  pool : string;
  steps : list step;
}.

Definition nightly_job : job :=
  {| job_name := "nightly";
     job_displayName := "Nightly tests Windows CPU";
     timeoutInMinutes := 180;
     pool := "$(Agent_Pool)";
     steps := [ remove_conda_env; setup_conda_env; run_tests;
                publish_test_results; conda_remove; remove_temp_files ] |}.

(** The steps of the job [nightly]. *)
Definition nightly : list step := steps nightly_job.

(** ** Running the job *)

(** One executed test, with the [pytest] invocation that ran it. *)
Record run_record := {
  from_path : string;
  from_marker : string;
  ran : test;
}.

(** A [pytest] invocation runs the collected tests its marker expression
    selects; an expression that does not parse is a usage error and runs
    nothing. *)
Definition pytest (suite : list test) (testpath m : string) : list run_record :=
  match compile_marker m with
  | Some e =>
      map (fun t => {| from_path := testpath; from_marker := m; ran := t |})
          (filter (fun t => collected testpath t && eval e t = true) suite)
  | None => []
  end.

Definition exec_command (suite : list test) (c : command) : list run_record :=
  match c with
  | Pytest testpath _ m _ => pytest suite testpath m
  | Cmd _ | Echo _ => []
  end.

Definition exec_action (suite : list test) (a : action) : list run_record :=
  match a with
  | Script body => flat_map (exec_command suite) body
  | Task _ _ => []
  end.

Inductive job_status := JobSucceeded | JobFailed | JobCanceled.

(** What happens to a step that is run: it ends well, it fails, or the
    job is cancelled meanwhile (by hand, or by [timeoutInMinutes]). *)
Inductive outcome := Passed | Failed | Canceled.

Definition enabled (c : condition) (st : job_status) : bool :=
  match c, st with
  | Succeeded, JobSucceeded => true
  | Succeeded, _ => false
  | SucceededOrFailed, JobCanceled => false
  | SucceededOrFailed, _ => true
  | Always, _ => true
  end.

Definition after (s : step) (o : outcome) (st : job_status) : job_status :=
  match o, st with
  | Canceled, _ => JobCanceled
  | _, JobCanceled => JobCanceled
  | Failed, _ => if continueOnError s then st else JobFailed
  | Passed, _ => st
  end.

(** The steps run in order; [fate i] is the outcome of step number [i].
    The result is the job's final status and the tests executed.  A step
    that is run logs every test its [pytest] lines select: one that fails
    or is cancelled on the way has run some of them, never another. *)
Fixpoint run_steps (suite : list test) (fate : nat -> outcome) (i : nat)
    (st : job_status) (steps : list step) : job_status * list run_record :=
  match steps with
  | [] => (st, [])
  | s :: rest =>
      if enabled (cond s) st then
        let '(st', log) := run_steps suite fate (S i) (after s (fate i) st) rest in
        (st', (exec_action suite (run s) ++ log)%list)
      else run_steps suite fate (S i) st rest
  end.

Definition run_job (suite : list test) (fate : nat -> outcome)
  : job_status * list run_record :=
  run_steps suite fate 0 JobSucceeded nightly.

End Pipeline.

(** * Frozen-graph serving (the sequential quick-start notebook) *)

Module Serving.

(** ** Exceptions and results *)

Inductive exn :=
| KeyError                      (* a dict or a graph has no such key *)
| FrameworkError (msg : string).  (* raised inside the framework *)

Inductive result (A : Type) :=
| Ok (a : A)
| Raise (e : exn).
Arguments Ok {A} a.
Arguments Raise {A} e.

#[export] Instance result_ret : MRet result := fun A a => Ok a.
#[export] Instance result_bind : MBind result := fun A B k r =>
  match r with
  | Ok a => k a
  | Raise e => Raise e
  end.

(** ** Files *)

(** The file system: the content of each file, by path. *)
Abbreviation files := (gmap string string).

(** A computation that may read and write files and may raise. *)
Definition io (A : Type) : Type := files -> result A * files.

#[export] Instance io_ret : MRet io := fun A a fs => (Ok a, fs).
#[export] Instance io_bind : MBind io := fun A B k m fs =>
  match m fs with
  | (Ok a, fs') => k a fs'
  | (Raise e, fs') => (Raise e, fs')
  end.

Definition lift {A} (r : result A) : io A := fun fs => (r, fs).

(** [open(path, "w")]: the file is created, or truncated when it exists. *)
Definition open_w (path : string) : io unit :=
  fun fs => (Ok tt, <[path := EmptyString]> fs).

(** [wt.write(s)] on a handle opened for writing: [s] goes to the end. *)
Definition write (path : string) (s : string) : io unit :=
  fun fs => (Ok tt, <[path := default EmptyString (fs !! path) ++ s]> fs).

(** [f.read()] of a whole file. *)
Definition read (path : string) : io string :=
  fun fs =>
    match fs !! path with
    | Some c => (Ok c, fs)
    | None => (Raise (FrameworkError "NotFoundError"), fs)
    end.

(** A [for] loop that updates a local variable. *)
Fixpoint for_acc {A S} (body : S -> A -> io S) (acc : S) (l : list A) : io S :=
  match l with
  | [] => mret acc
  | x :: l' => acc' ← body acc x; for_acc body acc' l'
  end.

Fixpoint for_each {A} (body : A -> io unit) (l : list A) : io unit :=
  match l with
  | [] => mret tt
  | x :: l' => body x;; for_each body l'
  end.

(** ** Arrays *)

(** A numpy array of scores, by nesting. *)
#[local] Set Warnings "-register-all".
Inductive ndarray (score : Type) :=
| Scalar (x : score)
| Array (xs : list (ndarray score)).
Arguments Scalar {score} x.
Arguments Array {score} xs.

(** [np.reshape(a, -1)]: the elements in row-major order. *)
Fixpoint reshape {score} (a : ndarray score) : list score :=
  match a with
  | Scalar x => [x]
  | Array xs => flat_map reshape xs
  end.

(** What the serving code feeds to a placeholder. *)
Inductive feed_value (value : Type) :=
| Ones (n : nat)          (* np.ones(n, dtype=np.float32) *)
| PyBool (b : bool)
| Batch (v : value).      (* an array taken from the batch *)
Arguments Ones {value} n.
Arguments PyBool {value} b.
Arguments Batch {value} v.

(** ** The framework, as the notebook uses it *)

Class Framework := {
  tensor : Type;                (* a node output of a graph *)
  tensor_eq_dec :: EqDecision tensor;
  tensor_countable :: Countable tensor;
  value : Type;                 (* an input array of a batch *)
  score : Type;                 (* np.float32 *)
  graph : Type;
  graph_def : Type;
  session : Type;
  hparams : Type;
  (* tf.Graph() *)
  Graph : graph;
  (* graph.as_graph_def() *)
  as_graph_def : graph -> graph_def;
  (* tf.graph_util.convert_variables_to_constants(sess, graph_def, names) *)
  convert_variables_to_constants :
    session -> graph_def -> list string -> result graph_def;
  SerializeToString : graph_def -> string;
  ParseFromString : string -> result graph_def;
  (* tf.import_graph_def(graph_def), into the given graph *)
  import_graph_def : graph_def -> graph -> result graph;
  (* tf.Session(graph=g) *)
  Session : graph -> session;
  get_tensor_by_name : graph -> string -> result tensor;
  (* sess.run(fetch, feed_dict=feed) *)
  sess_run : session -> tensor -> gmap tensor (feed_value value)
             -> result (ndarray score);
  (* '{0}'.format(x) *)
  format_score : score -> string;
}.

Section WithFramework.
Context `{F : Framework}.

(** A batch as the iterator yields it: a feed dictionary, or [None]. *)
Abbreviation batch := (option (gmap tensor value)).

(** The input iterator: its placeholders, and the batches of a file
    ([load_data_from_file] reads the file; it writes nothing). *)
Record Iterator := {
  it_items : tensor;
  it_cates : tensor;
  it_item_history : tensor;
  it_item_cate_history : tensor;
  it_mask : tensor;
  it_time_from_first_action : tensor;
  it_time_to_now : tensor;
  load_data_from_file : files -> string -> nat -> result (list batch);
}.

(** [class LoadFrozedPredModel] *)
Record LoadFrozedPredModel := {
  pred : tensor;
  items : tensor;
  cates : tensor;
  item_history : tensor;
  item_cate_history : tensor;
  mask : tensor;
  time_from_first_action : tensor;
  time_to_now : tensor;
  layer_keeps : tensor;
  is_training : tensor;
}.

(** [LoadFrozedPredModel.__init__] *)
Definition LoadFrozedPredModel_init (g : graph) : result LoadFrozedPredModel :=
  t_pred ← get_tensor_by_name g "import/pred:0";
  t_items ← get_tensor_by_name g "import/items:0";
  t_cates ← get_tensor_by_name g "import/cates:0";
  t_item_history ← get_tensor_by_name g "import/item_history:0";
  t_item_cate_history ← get_tensor_by_name g "import/item_cate_history:0";
  t_mask ← get_tensor_by_name g "import/mask:0";
  t_time_from_first_action ← get_tensor_by_name g "import/time_from_first_action:0";
  t_time_to_now ← get_tensor_by_name g "import/time_to_now:0";
  t_layer_keeps ← get_tensor_by_name g "import/layer_keeps:0";
  t_is_training ← get_tensor_by_name g "import/is_training:0";
  mret {| pred := t_pred; items := t_items; cates := t_cates;
          item_history := t_item_history;
          item_cate_history := t_item_cate_history;
          mask := t_mask;
          time_from_first_action := t_time_from_first_action;
          time_to_now := t_time_to_now;
          layer_keeps := t_layer_keeps;
          is_training := t_is_training |}.

(** [if batch_data_input:] - [None] and the empty dict are falsy. *)
Definition truthy (b : batch) : bool :=
  match b with
  | None => false
  | Some d => negb (Nat.eqb (size d) 0)
  end.

(** [d[k]] *)
Definition getitem (d : gmap tensor value) (k : tensor) : result value :=
  match d !! k with
  | Some v => Ok v
  | None => Raise KeyError
  end.

(** The dict display of [infer_as_serving]; a later entry replaces an
    earlier one with the same key. *)
Definition feed_dict_of (model : LoadFrozedPredModel) (iterator : Iterator)
    (d : gmap tensor value) : result (gmap tensor (feed_value value)) :=
  v_items ← getitem d (it_items iterator);
  v_cates ← getitem d (it_cates iterator);
  v_item_history ← getitem d (it_item_history iterator);
  v_item_cate_history ← getitem d (it_item_cate_history iterator);
  v_mask ← getitem d (it_mask iterator);
  v_time_from_first_action ← getitem d (it_time_from_first_action iterator);
  v_time_to_now ← getitem d (it_time_to_now iterator);
  mret (<[time_to_now model := Batch v_time_to_now]>
       (<[time_from_first_action model := Batch v_time_from_first_action]>
       (<[mask model := Batch v_mask]>
       (<[item_cate_history model := Batch v_item_cate_history]>
       (<[item_history model := Batch v_item_history]>
       (<[cates model := Batch v_cates]>
       (<[items model := Batch v_items]>
       (<[is_training model := PyBool false]>
       (<[layer_keeps model := Ones 3]> ∅))))))))).

(** The body of the [for] loop of [infer_as_serving], on one batch. *)
Definition serve_batch (model : LoadFrozedPredModel) (iterator : Iterator)
    (sess : session) (preds : list score) (batch_data_input : batch)
  : io (list score) :=
  match batch_data_input with
  | Some d =>
      if truthy batch_data_input then
        feed_dict ← lift (feed_dict_of model iterator d);
        step_pred ← lift (sess_run sess (pred model) feed_dict);
        (* preds.extend(np.reshape(step_pred, -1)) *)
        mret (preds ++ reshape step_pred)%list
      else mret preds
  | None => mret preds   (* falsy *)
  end.

(** [def infer_as_serving(model, infile, outfile, hparams, iterator, sess)].
    The generator of batches is taken whole before the loop; the loop
    itself touches no file, so this cannot be told from the lazy order. *)
Definition infer_as_serving (model : LoadFrozedPredModel)
    (infile outfile : string) (hp : hparams) (iterator : Iterator)
    (sess : session) : io unit :=
  batches ← (fun fs => (load_data_from_file iterator fs infile 0, fs));
  preds ← for_acc (serve_batch model iterator sess) [] batches;
  open_w outfile;;
  for_each (fun line =>
              write outfile (format_score line ++ String newline EmptyString))
           preds.


(** The cell that serves from the frozen graph.  [G] is a fresh graph;
    the session is opened on it, the graph definition read from
    [pb_path] is imported into it, and [sess.graph] is that same graph.
    The iterator gets a fresh graph of its own. *)
Definition serve (input_creator : hparams -> graph -> Iterator)
    (hp : hparams) (pb_path test_file serving_output_file : string)
  : io unit :=
  bytes ← read pb_path;
  graph_def_optimized ← lift (ParseFromString bytes);
  G ← lift (import_graph_def graph_def_optimized Graph);
  let sess := Session G in
  model ← lift (LoadFrozedPredModel_init G);
  let iterator := input_creator hp Graph in
  infer_as_serving model test_file serving_output_file hp iterator sess.

(** ** What the loop computes, said without the loop *)

(** The prediction tensor of one batch that is not skipped. *)
Definition prediction (model : LoadFrozedPredModel) (iterator : Iterator)
    (sess : session) (b : batch) : result (ndarray score) :=
  match b with
  | Some d =>
      feed_dict ← feed_dict_of model iterator d;
      sess_run sess (pred model) feed_dict
  | None => Raise KeyError
  end.

(** The prediction tensors of a list of batches, up to the first that
    raises. *)
Fixpoint predictions (model : LoadFrozedPredModel) (iterator : Iterator)
    (sess : session) (bs : list batch) : result (list (ndarray score)) :=
  match bs with
  | [] => Ok []
  | b :: bs' =>
      p ← prediction model iterator sess b;
      ps ← predictions model iterator sess bs';
      mret (p :: ps)
  end.

(** The text of a file with one score per line. *)
Fixpoint render (scores : list score) : string :=
  match scores with
  | [] => EmptyString
  | x :: rest => format_score x ++ String newline (render rest)
  end.

End WithFramework.

End Serving.

(** * A small framework to run the serving code on *)

Module Demo.
Import Serving.

Definition demo_run (feed : gmap string (feed_value nat))
  : result (ndarray bool) :=
  match feed !! "import/items:0", feed !! "import/is_training:0" with
  | Some (Batch n), Some (PyBool false) =>
      Ok (Array (map (fun k => Array [Scalar (Nat.even k)]) (seq 0 n)))
  | _, _ => Raise (FrameworkError "InvalidArgumentError")
  end.

(** Tensors are named; a graph is the list of its node names; a graph
    definition is its own serialisation; a score is a bit. *)
#[export] Instance toy : Framework := {|
  tensor := string;
  tensor_eq_dec := _;
  tensor_countable := _;
  value := nat;
  score := bool;
  graph := list string;
  graph_def := string;
  session := list string;
  hparams := unit;
  Graph := [];
  as_graph_def g := String.concat "," g;
  convert_variables_to_constants _ gd _ := Ok gd;
  SerializeToString gd := gd;
  ParseFromString bytes := Ok bytes;
  import_graph_def gd g := Ok (gd :: g);
  Session g := g;
  get_tensor_by_name g name :=
    match g with
    | [] => Raise KeyError
    | _ => if String.prefix "import/" name then Ok name else Raise KeyError
    end;
  sess_run _ _ feed := demo_run feed;
  format_score x := if x then "1.0" else "0.0";
|}.

Definition full_batch (n : nat) : gmap string nat :=
  list_to_map
    [ ("items:0", n); ("cates:0", n); ("item_history:0", n);
      ("item_cate_history:0", n); ("mask:0", n);
      ("time_from_first_action:0", n); ("time_to_now:0", n);
      ("labels:0", n) ].

(** Two instances, a [None], an empty dict, then one instance more. *)
Definition demo_batches : list (option (gmap string nat)) :=
  [ Some (full_batch 2); None; Some ∅; Some (full_batch 1) ].

Definition demo_iterator (_ : unit) (_ : list string) : Iterator :=
  {| it_items := "items:0";
     it_cates := "cates:0";
     it_item_history := "item_history:0";
     it_item_cate_history := "item_cate_history:0";
     it_mask := "mask:0";
     it_time_from_first_action := "time_from_first_action:0";
     it_time_to_now := "time_to_now:0";
     load_data_from_file fs path _ :=
       match fs !! path with
       | Some _ => Ok demo_batches
       | None => Raise (FrameworkError "NotFoundError")
       end |}.

Definition demo_model : LoadFrozedPredModel :=
  {| pred := "import/pred:0";
     items := "import/items:0";
     cates := "import/cates:0";
     item_history := "import/item_history:0";
     item_cate_history := "import/item_cate_history:0";
     mask := "import/mask:0";
     time_from_first_action := "import/time_from_first_action:0";
     time_to_now := "import/time_to_now:0";
     layer_keeps := "import/layer_keeps:0";
     is_training := "import/is_training:0" |}.

Definition demo_files : gmap string string :=
  list_to_map
    [ ("model/serving_model.pb", "pred");
      ("test_data", "three instances");
      ("output_serving.txt", "left over from an earlier run") ].


End Demo.

(** * A small test suite to run the nightly job on *)

Module DemoSuite.
Import Pipeline.

Definition t_smoke : test :=
  {| nodeid := "tests/smoke/test_sar.py::test_sar_single_node";
     markers := ["smoke"] |}.
Definition t_smoke_gpu : test :=
  {| nodeid := "tests/smoke/test_ncf.py::test_ncf_smoke";
     markers := ["smoke"; "gpu"] |}.
Definition t_smoke_spark : test :=
  {| nodeid := "tests/smoke/test_als.py::test_als_pyspark_smoke";
     markers := ["smoke"; "spark"] |}.
Definition t_integration : test :=
  {| nodeid := "tests/integration/test_sar.py::test_sar_integration";
     markers := ["integration"] |}.
Definition t_unit : test :=
  {| nodeid := "tests/unit/test_sar.py::test_init"; markers := [] |}.

Definition suite : list test :=
  [ t_smoke; t_smoke_gpu; t_smoke_spark; t_integration; t_unit ].

(** Every step ends well. *)
Definition all_pass (_ : nat) : outcome := Passed.

(** The environment cannot be created: step 1 fails. *)
Definition setup_fails (i : nat) : outcome :=
  if Nat.eqb i 1 then Failed else Passed.

End DemoSuite.

(** * The rest of the pipeline file: the steps that run, the schedules *)

Module PipelineRuns.
Import Pipeline.

(** The steps that are run, in order (the same walk as [run_steps]). *)
Fixpoint run_trace (fate : nat -> outcome) (i : nat) (st : job_status)
    (steps : list step) : list step :=
  match steps with
  | [] => []
  | s :: rest =>
      if enabled (cond s) st
      then s :: run_trace fate (S i) (after s (fate i) st) rest
      else run_trace fate (S i) st rest
  end.

Definition steps_run (fate : nat -> outcome) : list step :=
  run_trace fate 0 JobSucceeded nightly.

(** ** Schedules and triggers *)

Record schedule := {
  cron : string;
  schedule_displayName : string;
  branches_include : list string;
  (* false: only run if there have been source code changes since the
     last successful scheduled run *)
  always : bool;
}.

Definition schedules : list schedule :=
  [ {| cron := "7 0 * * *";
       schedule_displayName := "Nightly build master";
       branches_include := ["master"];
       always := false |};
    {| cron := "7 12 * * *";
       schedule_displayName := "Nightly build staging";
       branches_include := ["staging"];
       always := true |} ].

(** [trigger: none] and [pr: none]: the branches whose pushes, and whose
    pull requests, start the pipeline. *)
Definition trigger : list string := [].
Definition pr : list string := [].

(** A cron expression has five fields: minute, hour, day of the month,
    month, day of the week; the pipeline uses numbers and [*] only. *)
Inductive cron_field := Any | At (n : nat).

Definition digit (c : ascii) : option nat :=
  let n := nat_of_ascii c in
  if Nat.leb 48 n && Nat.leb n 57 then Some (n - 48) else None.

Fixpoint number (acc : nat) (w : string) : option nat :=
  match w with
  | EmptyString => Some acc
  | String c w' =>
      match digit c with
      | Some d => number (10 * acc + d) w'
      | None => None
      end
  end.

Definition parse_field (w : string) : option cron_field :=
  if String.eqb w "*" then Some Any
  else match w with
       | EmptyString => None
       | _ => option_map At (number 0 w)
       end.

(** The blank-separated words of a line. *)
Fixpoint words (w : string) (s : string) : list string :=
  match s with
  | EmptyString => match w with EmptyString => [] | _ => [w] end
  | String c s' =>
      if Ascii.eqb c space
      then match w with
           | EmptyString => words EmptyString s'
           | _ => w :: words EmptyString s'
           end
      else words (w ++ String c EmptyString) s'
  end.

Record instant := {
  minute : nat;
  hour : nat;
  day : nat;
  month : nat;
  weekday : nat;
}.

Definition field_matches (f : option cron_field) (n : nat) : bool :=
  match f with
  | Some Any => true
  | Some (At m) => Nat.eqb m n
  | None => false
  end.

Definition cron_matches (expr : string) (t : instant) : bool :=
  match map parse_field (words EmptyString expr) with
  | [mi; ho; da; mo; wd] =>
      field_matches mi (minute t) && field_matches ho (hour t)
      && field_matches da (day t) && field_matches mo (month t)
      && field_matches wd (weekday t)
  | _ => false
  end.

(** What can start a run: a push to a branch, a pull request against a
    branch, or the scheduler looking at a branch at some time, with or
    without source changes since the last successful scheduled run. *)
Inductive event :=
| Push (branch : string)
| PullRequest (target : string)
| Tick (t : instant) (branch : string) (changed : bool).

Definition due (t : instant) (branch : string) (changed : bool)
    (s : schedule) : bool :=
  cron_matches (cron s) t
  && existsb (String.eqb branch) (branches_include s)
  && (always s || changed).

Definition starts (ev : event) : bool :=
  match ev with
  | Push branch => existsb (String.eqb branch) trigger
  | PullRequest target => existsb (String.eqb target) pr
  | Tick t branch changed => existsb (due t branch changed) schedules
  end.

End PipelineRuns.

(** * The rest of the serving notebook: paths and cells *)

Module Notebook.
Import Serving.

(** [os.path.join(a, b)], with [/] as the separator. *)
Fixpoint ends_with_slash (a : string) : bool :=
  match a with
  | EmptyString => false
  | String c EmptyString => Ascii.eqb c "/"%char
  | String _ a' => ends_with_slash a'
  end.

Definition os_path_join (a b : string) : string :=
  if String.prefix "/" b then b
  else if String.eqb a EmptyString || ends_with_slash a then a ++ b
  else a ++ "/" ++ b.

(** [os.path.exists(path)] *)
Definition os_path_exists (path : string) : io bool :=
  fun fs => (Ok (bool_decide (is_Some (fs !! path))), fs).

(** The file names of the notebook, below [data_path]. *)
Definition train_file (data_path : string) := os_path_join data_path "train_data".
Definition valid_file (data_path : string) := os_path_join data_path "valid_data".
Definition test_file (data_path : string) := os_path_join data_path "test_data".
Definition user_vocab (data_path : string) := os_path_join data_path "user_vocab.pkl".
Definition item_vocab (data_path : string) := os_path_join data_path "item_vocab.pkl".
Definition cate_vocab (data_path : string) := os_path_join data_path "category_vocab.pkl".
Definition output_file (data_path : string) := os_path_join data_path "output.txt".
Definition reviews_name : string := "reviews_Movies_and_TV_5.json".
Definition meta_name : string := "meta_Movies_and_TV.json".
Definition reviews_file (data_path : string) := os_path_join data_path reviews_name.
Definition meta_file (data_path : string) := os_path_join data_path meta_name.
Definition valid_num_ngs : nat := 4.
Definition test_num_ngs : nat := 9.
(** [sample_rate = 0.01], as a fraction. *)
Definition sample_rate : nat * nat := (1, 100).

Definition input_files (data_path : string) : list string :=
  [ reviews_file data_path; meta_file data_path; train_file data_path;
    valid_file data_path; test_file data_path; user_vocab data_path;
    item_vocab data_path; cate_vocab data_path ].

(** [MODEL_DIR] as given to [prepare_hparams], which [hparams.MODEL_DIR]
    reads back. *)
Definition MODEL_DIR (data_path : string) := os_path_join data_path "model/".
Definition serving_model_pb (data_path : string) :=
  os_path_join (MODEL_DIR data_path) "serving_model.pb".
Definition serving_output_file (data_path : string) :=
  os_path_join data_path "output_serving.txt".

(** The cell that prepares the data: nothing is fetched when the
    training file is there.  The two helpers are the caller's. *)
Definition prepare_data
    (download_and_extract : string -> string -> io unit)
    (data_preprocessing : list string -> nat * nat -> nat -> nat -> io unit)
    (data_path : string) : io unit :=
  found ← os_path_exists (train_file data_path);
  if negb found then
    download_and_extract reviews_name (reviews_file data_path);;
    download_and_extract meta_name (meta_file data_path);;
    data_preprocessing (input_files data_path) sample_rate
                       valid_num_ngs test_num_ngs
  else mret tt.

(** The xDeepFM notebook fetches its resources in the same way: only when
    the configuration file is not there. *)
Definition xdeepfm_yaml_file (data_path : string) :=
  os_path_join data_path "xDeepFM.yaml".

Definition prepare_resources
    (download_deeprec_resources : string -> string -> string -> io unit)
    (data_path : string) : io unit :=
  found ← os_path_exists (xdeepfm_yaml_file data_path);
  if negb found then
    download_deeprec_resources
      "https://recodatasets.blob.core.windows.net/deeprec/"
      data_path "xdeepfmresources.zip"
  else mret tt.

Section WithFramework.
Context `{F : Framework}.

(** The placeholders of the iterator that [infer_as_serving] reads from a
    batch, and the nodes of the model that it feeds. *)
Definition batch_keys (iterator : Iterator) : list tensor :=
  [ it_items iterator; it_cates iterator; it_item_history iterator;
    it_item_cate_history iterator; it_mask iterator;
    it_time_from_first_action iterator; it_time_to_now iterator ].

Definition fed_nodes (model : LoadFrozedPredModel) : list tensor :=
  [ layer_keeps model; is_training model; items model; cates model;
    item_history model; item_cate_history model; mask model;
    time_from_first_action model; time_to_now model ].

(** The names [LoadFrozedPredModel] looks up, in its order. *)
Definition node_names : list string :=
  [ "import/pred:0"; "import/items:0"; "import/cates:0";
    "import/item_history:0"; "import/item_cate_history:0";
    "import/mask:0"; "import/time_from_first_action:0";
    "import/time_to_now:0"; "import/layer_keeps:0";
    "import/is_training:0" ].


Definition serving_cell (input_creator : hparams -> graph -> Iterator)
    (hp : hparams) (data_path : string) : io unit :=
  serve input_creator hp (serving_model_pb data_path)
        (test_file data_path) (serving_output_file data_path).

End WithFramework.

End Notebook.

(** * Facts *)

(** ** Text *)


Lemma append_cons (x : ascii) (a b : string) :
  String x a ++ b = String x (a ++ b).
Proof. reflexivity. Qed.

Lemma append_assoc (a b c : string) : (a ++ b) ++ c = a ++ (b ++ c).
Proof.
  induction a as [|x a IH]; [reflexivity|].
  rewrite !append_cons. now rewrite IH.
Qed.

Lemma append_empty (a : string) : a ++ EmptyString = a.
Proof.
  induction a as [|x a IH]; [reflexivity|].
  rewrite append_cons. now rewrite IH.
Qed.

(** ** The nightly job *)

Module PipelineFacts.
Import Pipeline.

Lemma has_marker_elem (name : string) (t : test) :
  has_marker name t = true <-> name ∈ markers t.
Proof.
  unfold has_marker. rewrite existsb_exists, list_elem_of_In. split.
  - intros (m & Hin & Heq). apply String.eqb_eq in Heq. now subst.
  - intros Hin. exists name. split; [exact Hin | apply String.eqb_refl].
Qed.

Lemma has_marker_not_elem (name : string) (t : test) :
  has_marker name t = false <-> name ∉ markers t.
Proof.
  rewrite <- has_marker_elem. destruct (has_marker name t); split; congruence.
Qed.

Lemma compile_smoke_marker :
  compile_marker smoke_marker
  = Some (MAnd (MAnd (MIdent "smoke") (MNot (MIdent "spark")))
               (MNot (MIdent "gpu"))).
Proof. reflexivity. Qed.

Lemma compile_integration_marker :
  compile_marker integration_marker
  = Some (MAnd (MAnd (MIdent "integration") (MNot (MIdent "spark")))
               (MNot (MIdent "gpu"))).
Proof. reflexivity. Qed.

(** What [pytest] runs was collected below its path and satisfies its
    marker expression. *)
Lemma pytest_selected (suite : list test) (testpath m : string)
    (e : mexpr) (r : run_record) :
  compile_marker m = Some e ->
  r ∈ pytest suite testpath m ->
  from_path r = testpath /\ from_marker r = m /\ ran r ∈ suite
  /\ collected testpath (ran r) = true /\ eval e (ran r) = true.
Proof.
  intros He. unfold pytest. rewrite He.
  rewrite list_elem_of_fmap. intros (t & -> & Ht).
  apply list_elem_of_filter in Ht as [Hsel Ht].
  apply andb_true_iff in Hsel as [Hc Hm]. simpl. auto.
Qed.

(** Whatever the outcomes, a test in the log was run by one of the steps. *)
Lemma run_steps_log (suite : list test) (fate : nat -> outcome)
    (steps : list step) (i : nat) (st : job_status) (r : run_record) :
  r ∈ (run_steps suite fate i st steps).2 ->
  exists s, s ∈ steps /\ r ∈ exec_action suite (run s).
Proof.
  revert i st. induction steps as [|s rest IH]; intros i st; cbn [run_steps].
  - intros Hr. inversion Hr.
  - destruct (enabled (cond s) st).
    + destruct (run_steps suite fate (S i) (after s (fate i) st) rest)
        as [st' log] eqn:Hrest.
      cbn [snd]. rewrite elem_of_app. intros [Hr | Hr].
      * exists s. split; [left | exact Hr].
      * destruct (IH (S i) (after s (fate i) st)) as (s' & Hs' & Hr').
        { now rewrite Hrest. }
        exists s'. split; [now right | exact Hr'].
    + intros Hr. destruct (IH _ _ Hr) as (s' & Hs' & Hr').
      exists s'. split; [now right | exact Hr'].
Qed.

(** Only the two [pytest] lines of 'Run Tests' run tests. *)
Lemma nightly_step_runs (suite : list test) (s : step) (r : run_record) :
  s ∈ nightly -> r ∈ exec_action suite (run s) ->
  r ∈ pytest suite "tests/smoke" smoke_marker
  \/ r ∈ pytest suite "tests/integration" integration_marker.
Proof.
  unfold nightly, nightly_job. cbn [steps]. rewrite !elem_of_cons, elem_of_nil.
  intros [->|[->|[->|[->|[->|[->|[]]]]]]]; cbn; rewrite ?elem_of_nil; try tauto.
  rewrite app_nil_r, elem_of_app. tauto.
Qed.

(** C8. The nightly job runs no Spark and no GPU test.  For every test
    suite and whatever the outcome of each step (it ends well, it fails,
    the job is cancelled), every test the job runs was run by the smoke
    invocation of 'Run Tests' and carries the [smoke] marker, or by the
    integration invocation and carries the [integration] marker; in both
    cases it carries neither the [spark] nor the [gpu] marker. *)
Theorem nightly_runs_no_spark_or_gpu_test
    (suite : list test) (fate : nat -> outcome) (r : run_record) :
  r ∈ (run_job suite fate).2 ->
  (from_path r = "tests/smoke" /\ "smoke" ∈ markers (ran r)
   \/ from_path r = "tests/integration" /\ "integration" ∈ markers (ran r))
  /\ ("spark" ∉ markers (ran r))
  /\ ("gpu" ∉ markers (ran r)).
Proof.
  intros Hr. apply run_steps_log in Hr as (s & Hs & Hr).
  destruct (nightly_step_runs suite s r Hs Hr) as [Hrun | Hrun].
  - apply (pytest_selected _ _ _ _ _ compile_smoke_marker) in Hrun
      as (Hpath & _ & _ & _ & Hsel).
    cbn [eval] in Hsel.
    apply andb_true_iff in Hsel as [Hsel Hgpu].
    apply andb_true_iff in Hsel as [Hsmoke Hspark].
    apply negb_true_iff in Hgpu, Hspark.
    rewrite has_marker_elem in Hsmoke.
    rewrite has_marker_not_elem in Hgpu, Hspark. auto.
  - apply (pytest_selected _ _ _ _ _ compile_integration_marker) in Hrun
      as (Hpath & _ & _ & _ & Hsel).
    cbn [eval] in Hsel.
    apply andb_true_iff in Hsel as [Hsel Hgpu].
    apply andb_true_iff in Hsel as [Hint Hspark].
    apply negb_true_iff in Hgpu, Hspark.
    rewrite has_marker_elem in Hint.
    rewrite has_marker_not_elem in Hgpu, Hspark. auto.
Qed.

(** On the demo suite the job runs one smoke and one integration test;
    the smoke tests marked [gpu] and [spark] and the unit test are left
    out.  When the environment cannot be set up, no test runs at all. *)
Example nightly_on_demo_suite :
  (run_job DemoSuite.suite DemoSuite.all_pass).2
  = [ {| from_path := "tests/smoke"; from_marker := smoke_marker;
         ran := DemoSuite.t_smoke |};
      {| from_path := "tests/integration"; from_marker := integration_marker;
         ran := DemoSuite.t_integration |} ].
Proof. reflexivity. Qed.

Example nightly_when_setup_fails :
  run_job DemoSuite.suite DemoSuite.setup_fails = (JobFailed, []).
Proof. reflexivity. Qed.

(** C8 at the demo suite: the smoke test that is run. *)
Lemma nightly_runs_no_spark_or_gpu_test_witness :
  let r := {| from_path := "tests/smoke"; from_marker := smoke_marker;
              ran := DemoSuite.t_smoke |} in
  r ∈ (run_job DemoSuite.suite DemoSuite.all_pass).2
  /\ (from_path r = "tests/smoke" /\ "smoke" ∈ markers (ran r)
      \/ from_path r = "tests/integration" /\ "integration" ∈ markers (ran r))
  /\ ("spark" ∉ markers (ran r))
  /\ ("gpu" ∉ markers (ran r)).
Proof.
  intros r.
  assert (Hr : r ∈ (run_job DemoSuite.suite DemoSuite.all_pass).2).
  { vm_compute. apply list_elem_of_here. }
  split; [exact Hr|].
  exact (nightly_runs_no_spark_or_gpu_test
           DemoSuite.suite DemoSuite.all_pass r Hr).
Defined.

End PipelineFacts.

(** ** Serving *)

Module ServingFacts.
Import Serving.

Section WithFramework.
Context `{F : Framework}.

Abbreviation batch := (option (gmap tensor value)).



(** The [with open(outfile, "w")] block: whatever the file held, it holds
    the rendered scores afterwards; no other file changes. *)
Lemma for_each_write (path : string) (preds : list score) (fs : files) (c : string) :
  fs !! path = Some c ->
  for_each (fun line => write path (format_score line ++ String newline EmptyString))
           preds fs
  = (Ok tt, <[path := c ++ render preds]> fs).
Proof.
  revert fs c. induction preds as [|x rest IH]; intros fs c Hc; simpl.
  - rewrite append_empty. unfold mret, io_ret. f_equal.
    symmetry. now apply insert_id.
  - unfold mbind, io_bind, write at 1. rewrite Hc. simpl.
    erewrite IH by apply lookup_insert_eq.
    rewrite insert_insert_eq. do 2 f_equal.
    rewrite !append_assoc. reflexivity.
Qed.

Lemma open_then_write (path : string) (preds : list score) (fs : files) :
  (open_w path;;
   for_each (fun line => write path (format_score line ++ String newline EmptyString))
            preds) fs
  = (Ok tt, <[path := render preds]> fs).
Proof.
  unfold mbind, io_bind, open_w.
  erewrite for_each_write by apply lookup_insert_eq.
  now rewrite insert_insert_eq.
Qed.

(** The [for] loop over the batches, as one equation: the accumulator
    grows by the flattened predictions of the truthy batches, in order,
    and the first exception ends the loop. No file is touched. *)
Lemma for_acc_serve_batch (model : LoadFrozedPredModel) (iterator : Iterator)
    (sess : session) (batches : list batch) (acc : list score) (fs : files) :
  for_acc (serve_batch model iterator sess) acc batches fs
  = (ps ← predictions model iterator sess (filter (fun b => truthy b) batches);
     mret (acc ++ flat_map reshape ps)%list, fs).
Proof.
  revert acc. induction batches as [|b bs IH]; intros acc.
  - simpl. rewrite app_nil_r. reflexivity.
  - destruct (truthy b) eqn:Hb.
    + rewrite filter_cons_True by (rewrite Hb; exact I).
      destruct b as [d|]; [|discriminate Hb].
      cbn [for_acc predictions prediction serve_batch]. rewrite Hb.
      unfold mbind at 1. unfold io_bind. unfold mbind at 1. unfold io_bind.
      unfold lift at 1.
      destruct (feed_dict_of model iterator d) as [feed|e]; [|reflexivity].
      unfold mbind at 1. unfold io_bind. unfold lift at 1.
      cbn [mbind result_bind].
      destruct (sess_run sess (pred model) feed) as [p|e]; [|reflexivity].
      unfold mret at 1. unfold io_ret. rewrite IH.
      destruct (predictions model iterator sess (filter (fun b => truthy b) bs))
        as [ps|e]; [|reflexivity].
      cbn. rewrite <- app_assoc. reflexivity.
    + rewrite filter_cons_False by (rewrite Hb; exact id).
      assert (Hskip : forall fs', serve_batch model iterator sess acc b fs' = (Ok acc, fs')).
      { intros fs'. destruct b as [d|]; cbn [serve_batch]; [rewrite Hb|]; reflexivity. }
      cbn [for_acc]. unfold mbind at 1. unfold io_bind. rewrite Hskip. apply IH.
Qed.

(** [infer_as_serving], as one equation. *)
Lemma infer_as_serving_run (model : LoadFrozedPredModel)
    (infile outfile : string) (hp : hparams) (iterator : Iterator)
    (sess : session) (fs : files) :
  infer_as_serving model infile outfile hp iterator sess fs
  = match (batches ← load_data_from_file iterator fs infile 0;
           predictions model iterator sess (filter (fun b => truthy b) batches)) with
    | Ok ps => (Ok tt, <[outfile := render (flat_map reshape ps)]> fs)
    | Raise e => (Raise e, fs)
    end.
Proof.
  unfold infer_as_serving. unfold mbind at 1. unfold io_bind.
  destruct (load_data_from_file iterator fs infile 0) as [batches|e]; [|reflexivity].
  unfold mbind at 1. unfold io_bind. rewrite for_acc_serve_batch.
  cbn [mbind result_bind].
  destruct (predictions model iterator sess (filter (fun b => truthy b) batches))
    as [ps|e]; [|reflexivity].
  cbn [mret result_ret app]. apply open_then_write.
Qed.

Lemma predictions_Forall2 (model : LoadFrozedPredModel) (iterator : Iterator)
    (sess : session) (bs : list batch) (ps : list (ndarray score)) :
  predictions model iterator sess bs = Ok ps
  <-> Forall2 (fun b p => prediction model iterator sess b = Ok p) bs ps.
Proof.
  revert ps. induction bs as [|b bs IH]; intros ps; cbn [predictions].
  - split.
    + intros [= <-]. constructor.
    + intros Hall. inversion Hall. reflexivity.
  - split.
    + destruct (prediction model iterator sess b) as [p|e] eqn:Hp;
        cbn [mbind result_bind]; [|discriminate].
      destruct (predictions model iterator sess bs) as [ps'|e] eqn:Hps;
        cbn [mbind result_bind]; [|discriminate].
      intros [= <-]. constructor; [exact Hp | now apply IH].
    + intros Hall. inversion Hall as [|b0 p bs0 ps' Hp Hrest]; subst.
      rewrite Hp. cbn [mbind result_bind].
      apply IH in Hrest. rewrite Hrest. reflexivity.
Qed.



(** When the iterator, a batch lookup or a session run raises, the
    exception leaves [infer_as_serving] before the output file is opened:
    no file changes. *)
Lemma infer_as_serving_raises_before_open (model : LoadFrozedPredModel)
    (infile outfile : string) (hp : hparams) (iterator : Iterator)
    (sess : session) (fs : files) (e : exn) :
  (batches ← load_data_from_file iterator fs infile 0;
   predictions model iterator sess (filter (fun b => truthy b) batches))
  = Raise e ->
  infer_as_serving model infile outfile hp iterator sess fs = (Raise e, fs).
Proof. intros Hraise. rewrite infer_as_serving_run, Hraise. reflexivity. Qed.




End WithFramework.
End ServingFacts.

Module DemoFacts.
Import Serving Demo ServingFacts.



End DemoFacts.

(** * More facts *)

(** ** The nightly job: which steps run, when it starts *)

Module PipelineRunsFacts.
Import Pipeline PipelineRuns PipelineFacts.


Lemma run_steps_status (suite : list test) (fate : nat -> outcome)
    (steps : list step) (i : nat) (st : job_status) :
  (run_steps suite fate i st steps).1
  = fold_left (fun st '(j, s) =>
                 if enabled (cond s) st then after s (fate j) st else st)
              (zip (seq i (length steps)) steps) st.
Proof.
  revert i st. induction steps as [|s rest IH]; intros i st; cbn [run_steps].
  - reflexivity.
  - cbn [length seq zip zip_with fold_left].
    destruct (enabled (cond s) st); [|apply IH].
    specialize (IH (S i) (after s (fate i) st)).
    destruct (run_steps suite fate (S i) (after s (fate i) st) rest) as [st' log].
    exact IH.
Qed.

Lemma steps_run_cases (fate : nat -> outcome) :
  steps_run fate
  = match fate 0, fate 1, fate 2 with
    | Passed, Passed, Canceled =>
        [remove_conda_env; setup_conda_env; run_tests; conda_remove]
    | Passed, Passed, _ =>
        match fate 3, fate 4 with
        | Canceled, _ | _, Canceled =>
            [remove_conda_env; setup_conda_env; run_tests;
             publish_test_results; conda_remove]
        | _, _ =>
            [remove_conda_env; setup_conda_env; run_tests;
             publish_test_results; conda_remove; remove_temp_files]
        end
    | Passed, Canceled, _ => [remove_conda_env; setup_conda_env; conda_remove]
    | Passed, Failed, _ =>
        match fate 3, fate 4 with
        | Canceled, _ | _, Canceled =>
            [remove_conda_env; setup_conda_env; publish_test_results; conda_remove]
        | _, _ =>
            [remove_conda_env; setup_conda_env; publish_test_results;
             conda_remove; remove_temp_files]
        end
    | Canceled, _, _ => [remove_conda_env; conda_remove]
    | Failed, _, _ =>
        match fate 3, fate 4 with
        | Canceled, _ | _, Canceled =>
            [remove_conda_env; publish_test_results; conda_remove]
        | _, _ =>
            [remove_conda_env; publish_test_results; conda_remove;
             remove_temp_files]
        end
    end.
Proof.
  unfold steps_run, nightly, nightly_job. cbn [steps run_trace].
  destruct (fate 0), (fate 1), (fate 2), (fate 3), (fate 4); reflexivity.
Qed.

Ltac step_cases fate :=
  rewrite (steps_run_cases fate);
  destruct (fate 0), (fate 1), (fate 2), (fate 3), (fate 4).

Ltac in_steps :=
  repeat first [ apply list_elem_of_here | apply list_elem_of_further ].

Ltac not_in_steps H :=
  repeat (apply elem_of_cons in H as [H|H]; [discriminate H|]);
  apply elem_of_nil in H; destruct H.

(** X1. The environment is always removed at the end: whatever happens to
    the steps, failure and cancellation included, the 'Conda remove'
    step is among the steps that run. *)
Theorem conda_remove_always_runs (fate : nat -> outcome) :
  conda_remove ∈ steps_run fate.
Proof. step_cases fate; in_steps. Qed.

(** X2. The tests are run exactly when the two steps before them ended
    well: 'Run Tests' is among the steps that run if and only if removing
    the old environment and setting up the new one both passed. *)
Theorem run_tests_iff_setup_passed (fate : nat -> outcome) :
  run_tests ∈ steps_run fate <-> fate 0 = Passed /\ fate 1 = Passed.
Proof.
  rewrite (steps_run_cases fate).
  destruct (fate 0), (fate 1), (fate 2), (fate 3), (fate 4);
    (split; [intros H; try (split; reflexivity); exfalso; not_in_steps H
            | intros [? ?]; try discriminate; in_steps]).
Qed.

(** X3. The test results are published unless the job was cancelled:
    'Publish Test Results' runs if and only if none of the steps that ran
    before it was cancelled; failing steps, failing tests included, do
    not prevent it. *)
Theorem publish_iff_not_canceled (fate : nat -> outcome) :
  publish_test_results ∈ steps_run fate
  <-> fate 0 <> Canceled
      /\ (fate 0 = Passed -> fate 1 <> Canceled)
      /\ (fate 0 = Passed -> fate 1 = Passed -> fate 2 <> Canceled).
Proof.
  rewrite (steps_run_cases fate).
  destruct (fate 0), (fate 1), (fate 2), (fate 3), (fate 4);
    (split;
     [ intros H; try (repeat split; intros; discriminate);
       exfalso; not_in_steps H
     | intros (H0 & H1 & H2); try (in_steps; fail);
       exfalso; first [ now apply H0 | now apply H1 | now apply H2 ] ]).
Qed.

(** X4. When the job succeeds.  The job ends as succeeded if and only if
    every step passed, except that a failure of 'Conda remove' (which has
    [continueOnError]) is tolerated; a failing test step fails the job. *)
Theorem job_succeeds_iff (suite : list test) (fate : nat -> outcome) :
  (run_job suite fate).1 = JobSucceeded
  <-> fate 0 = Passed /\ fate 1 = Passed /\ fate 2 = Passed
      /\ fate 3 = Passed /\ fate 4 <> Canceled /\ fate 5 = Passed.
Proof.
  unfold run_job. rewrite run_steps_status.
  unfold nightly, nightly_job. cbn.
  destruct (fate 0); cbn;
    [ destruct (fate 1); cbn; [ destruct (fate 2); cbn | | ] | | ];
    destruct (fate 3); cbn; destruct (fate 4); cbn; destruct (fate 5); cbn;
    (split; [ intros H; try discriminate H; repeat split; discriminate
            | intros (? & ? & ? & ? & H4 & ?);
              try discriminate; try reflexivity; exfalso; now apply H4 ]).
Qed.






Lemma cron_master (t : instant) :
  cron_matches "7 0 * * *" t = Nat.eqb 7 (minute t) && Nat.eqb 0 (hour t).
Proof.
  unfold cron_matches.
  replace (map parse_field (words EmptyString "7 0 * * *"))
    with [Some (At 7); Some (At 0); Some Any; Some Any; Some Any]
    by (vm_compute; reflexivity).
  cbn [field_matches]. now rewrite !andb_true_r.
Qed.

Lemma cron_staging (t : instant) :
  cron_matches "7 12 * * *" t = Nat.eqb 7 (minute t) && Nat.eqb 12 (hour t).
Proof.
  unfold cron_matches.
  replace (map parse_field (words EmptyString "7 12 * * *"))
    with [Some (At 7); Some (At 12); Some Any; Some Any; Some Any]
    by (vm_compute; reflexivity).
  cbn [field_matches]. now rewrite !andb_true_r.
Qed.

(** X7. What starts the pipeline.  No push and no pull request does.  The
    scheduler starts it at seven minutes past midnight on [master], and
    then only when the sources changed since the last successful
    scheduled run, and at seven minutes past noon on [staging], changes
    or not; on no other branch and at no other time. *)
Theorem starts_iff (ev : event) :
  starts ev = true
  <-> exists t branch changed,
        ev = Tick t branch changed
        /\ minute t = 7
        /\ (hour t = 0 /\ branch = "master" /\ changed = true
            \/ hour t = 12 /\ branch = "staging").
Proof.
  destruct ev as [b | b | t b ch]; cbn [starts trigger pr existsb].
  - split; [discriminate | intros (? & ? & ? & [=] & _)].
  - split; [discriminate | intros (? & ? & ? & [=] & _)].
  - unfold schedules, due. cbn [existsb cron branches_include always].
    rewrite cron_master, cron_staging.
    rewrite !orb_false_r, orb_true_l, orb_false_l, andb_true_r.
    rewrite orb_true_iff, !andb_true_iff, !Nat.eqb_eq, !String.eqb_eq.
    split.
    + intros [(([Hm Hh] & Hb) & Hc) | ([Hm Hh] & Hb)];
        exists t, b, ch; repeat split; auto.
    + intros (t' & b' & ch' & [= <- <- <-] & Hm & [(Hh & -> & ->) | (Hh & ->)]).
      * left. repeat split; auto.
      * right. repeat split; auto.
Qed.


End PipelineRunsFacts.

(** ** Serving: failures, the feed dictionary, the cells *)

Module ServingMoreFacts.
Import Serving Notebook ServingFacts.

Section WithFramework.
Context `{F : Framework}.

Abbreviation batch := (option (gmap tensor value)).

Ltac in_list :=
  repeat first [ apply list_elem_of_here | apply list_elem_of_further ].


(** No file but the output file changes, whether the call returns or
    raises. *)
Lemma infer_as_serving_frame
    (model : LoadFrozedPredModel) (infile outfile : string) (hp : hparams)
    (iterator : Iterator) (sess : session) (fs : files) (path : string) :
  path <> outfile ->
  (infer_as_serving model infile outfile hp iterator sess fs).2 !! path
  = fs !! path.
Proof.
  intros Hne. rewrite infer_as_serving_run.
  destruct (batches ← load_data_from_file iterator fs infile 0;
            predictions model iterator sess (filter (fun b => truthy b) batches))
    as [ps|e]; cbn [snd]; [|reflexivity].
  now apply lookup_insert_ne.
Qed.



Lemma feed_dict_of_missing (model : LoadFrozedPredModel) (iterator : Iterator)
    (d : gmap tensor value) (k : tensor) :
  k ∈ batch_keys iterator -> d !! k = None ->
  feed_dict_of model iterator d = Raise KeyError.
Proof.
  intros Hk Hnone. unfold feed_dict_of, getitem.
  repeat match goal with
         | |- context [match d !! ?x with _ => _ end] =>
             destruct (d !! x) eqn:?; cbn [mbind result_bind]; [|reflexivity]
         end.
  exfalso. unfold batch_keys in Hk.
  rewrite !elem_of_cons, elem_of_nil in Hk.
  destruct Hk as [->|[->|[->|[->|[->|[->|[->|[]]]]]]]]; congruence.
Qed.

Lemma predictions_app (model : LoadFrozedPredModel) (iterator : Iterator)
    (sess : session) (bs1 bs2 : list batch) :
  predictions model iterator sess (bs1 ++ bs2)
  = ps1 ← predictions model iterator sess bs1;
    ps2 ← predictions model iterator sess bs2;
    mret (ps1 ++ ps2)%list.
Proof.
  induction bs1 as [|b bs1 IH]; cbn [predictions app].
  - cbn [mbind result_bind].
    destruct (predictions model iterator sess bs2); reflexivity.
  - destruct (prediction model iterator sess b); cbn [mbind result_bind];
      [|reflexivity].
    rewrite IH.
    destruct (predictions model iterator sess bs1); cbn [mbind result_bind];
      [|reflexivity].
    destruct (predictions model iterator sess bs2); reflexivity.
Qed.

(** X10. A batch without one of the seven inputs.  If the batches before
    it were scored, and a non-empty batch lacks the entry of one of the
    seven placeholders the serving code reads, then [infer_as_serving]
    raises [KeyError] and writes nothing: the scores already computed are
    dropped and no file changes. *)
Theorem infer_as_serving_missing_key
    (model : LoadFrozedPredModel) (infile outfile : string) (hp : hparams)
    (iterator : Iterator) (sess : session) (fs : files)
    (before after : list batch) (d : gmap tensor value)
    (ps : list (ndarray score)) (k : tensor) :
  load_data_from_file iterator fs infile 0 = Ok (before ++ Some d :: after)%list ->
  Forall2 (fun b p => prediction model iterator sess b = Ok p)
          (filter (fun b => truthy b) before) ps ->
  d <> ∅ ->
  k ∈ batch_keys iterator ->
  d !! k = None ->
  infer_as_serving model infile outfile hp iterator sess fs
  = (Raise KeyError, fs).
Proof.
  intros Hload Hps Hd Hk Hnone.
  apply infer_as_serving_raises_before_open. rewrite Hload.
  cbn [mbind result_bind].
  assert (Ht : truthy (Some d) = true).
  { cbn [truthy]. apply negb_true_iff, Nat.eqb_neq.
    intros Hsize. now apply map_size_empty_iff in Hsize. }
  rewrite filter_app, filter_cons_True by (rewrite Ht; exact I).
  rewrite predictions_app.
  apply predictions_Forall2 in Hps. rewrite Hps.
  cbn [mbind result_bind predictions prediction].
  rewrite (feed_dict_of_missing model iterator d k Hk Hnone).
  reflexivity.
Qed.


(** X12. What is fed.  When the nine nodes the model feeds are distinct,
    the feed dictionary built from a batch gives [np.ones(3)] to
    [layer_keeps] and [False] to [is_training], gives each of the seven
    input nodes the batch entry of the iterator placeholder of the same
    name, and has no other entry (in particular the fetched node is not
    fed when it is not one of the nine). *)
Theorem feed_dict_entries
    (model : LoadFrozedPredModel) (iterator : Iterator)
    (d : gmap tensor value) (feed : gmap tensor (feed_value value)) :
  NoDup (fed_nodes model) ->
  feed_dict_of model iterator d = Ok feed ->
  feed !! layer_keeps model = Some (Ones 3)
  /\ feed !! is_training model = Some (PyBool false)
  /\ feed !! items model = Batch <$> d !! it_items iterator
  /\ feed !! cates model = Batch <$> d !! it_cates iterator
  /\ feed !! item_history model = Batch <$> d !! it_item_history iterator
  /\ feed !! item_cate_history model
     = Batch <$> d !! it_item_cate_history iterator
  /\ feed !! mask model = Batch <$> d !! it_mask iterator
  /\ feed !! time_from_first_action model
     = Batch <$> d !! it_time_from_first_action iterator
  /\ feed !! time_to_now model = Batch <$> d !! it_time_to_now iterator
  /\ (forall t, t ∉ fed_nodes model -> feed !! t = None).
Proof.
  intros Hnd. unfold feed_dict_of, getitem.
  repeat match goal with
         | |- context [match d !! ?x with _ => _ end] =>
             destruct (d !! x) eqn:?; cbn [mbind result_bind]; [|discriminate]
         end.
  intros [= <-]. unfold fed_nodes in *.
  assert (Hout : forall t, t ∉ fed_nodes model ->
            forall P : Prop, (t <> layer_keeps model -> t <> is_training model ->
              t <> items model -> t <> cates model -> t <> item_history model ->
              t <> item_cate_history model -> t <> mask model ->
              t <> time_from_first_action model -> t <> time_to_now model -> P)
            -> P).
  { intros t Ht P HP. unfold fed_nodes in Ht.
    rewrite !not_elem_of_cons in Ht. apply HP; tauto. }
  repeat match type of Hnd with
         | NoDup (_ :: _) =>
             let Hx := fresh "Hx" in
             apply NoDup_cons in Hnd as [Hx Hnd];
             rewrite !not_elem_of_cons in Hx
         end.
  repeat match goal with H : _ /\ _ |- _ => destruct H end.
  repeat split;
    try (intros t Ht; apply (Hout t Ht); intros);
    repeat first
      [ rewrite lookup_insert_eq
      | rewrite lookup_insert_ne
          by first [ assumption | apply not_eq_sym; assumption ] ];
    rewrite ?lookup_empty; reflexivity.
Qed.

(** X13. Building the serving handle.  [LoadFrozedPredModel] succeeds
    exactly when the graph has all ten names [import/<field>:0], and then
    each field is the node of its own name; it raises as soon as, and
    only if, one of the ten names is missing. *)
Theorem LoadFrozedPredModel_init_iff (g : graph) :
  (forall model,
     LoadFrozedPredModel_init g = Ok model
     <-> map (get_tensor_by_name g) node_names
         = map Ok [ pred model; items model; cates model;
                    item_history model; item_cate_history model;
                    mask model; time_from_first_action model;
                    time_to_now model; layer_keeps model;
                    is_training model ])
  /\ ((exists e, LoadFrozedPredModel_init g = Raise e)
      <-> exists name e,
            name ∈ node_names /\ get_tensor_by_name g name = Raise e).
Proof.
  unfold LoadFrozedPredModel_init, node_names. cbn [map]. split.
  - intros model. split.
    + repeat match goal with
             | |- context [get_tensor_by_name g ?n ≫= _] =>
                 destruct (get_tensor_by_name g n);
                 cbn [mbind result_bind]; [|discriminate]
             end.
      intros [= <-]. reflexivity.
    + intros [= -> -> -> -> -> -> -> -> -> ->]. cbn [mbind result_bind].
      destruct model; reflexivity.
  - split.
    + intros [e He].
      repeat match type of He with
             | context [get_tensor_by_name g ?n ≫= _] =>
                 let Hn := fresh "Hn" in
                 destruct (get_tensor_by_name g n) eqn:Hn;
                 cbn [mbind result_bind] in He;
                 [| exists n; eexists; split; [in_list | exact Hn] ]
             end.
      discriminate He.
    + intros (name & e & Hin & Hraise).
      rewrite !elem_of_cons, elem_of_nil in Hin.
      repeat match goal with
             | |- context [get_tensor_by_name g ?n ≫= _] =>
                 let Hn := fresh "Hn" in
                 destruct (get_tensor_by_name g n) eqn:Hn;
                 cbn [mbind result_bind]; [| eauto ]
             end.
      exfalso.
      destruct Hin as [->|[->|[->|[->|[->|[->|[->|[->|[->|[->|[]]]]]]]]]]];
        congruence.
Qed.




End WithFramework.
End ServingMoreFacts.

(** ** The notebook's paths and its guarded downloads *)

Module NotebookFacts.
Import Serving Notebook ServingFacts ServingMoreFacts.

Lemma append_inj_l (pre a b : string) : pre ++ a = pre ++ b -> a = b.
Proof.
  induction pre as [|c pre IH]; [exact id|].
  rewrite !append_cons. intros [= H]. now apply IH.
Qed.

Lemma ends_with_slash_app (s t : string) :
  t <> EmptyString -> ends_with_slash (s ++ t) = ends_with_slash t.
Proof.
  intros Ht. induction s as [|c s IH]; [reflexivity|].
  rewrite append_cons. cbn [ends_with_slash].
  destruct (s ++ t) as [|c' r] eqn:Hst; [|exact IH].
  destruct s; [|discriminate Hst]. now destruct t.
Qed.

(** A relative name joined to a directory: the directory, with a slash
    if it needs one, then the name. *)
Lemma os_path_join_relative (a : string) :
  exists pre, forall b,
    String.prefix "/" b = false -> os_path_join a b = pre ++ b.
Proof.
  unfold os_path_join.
  destruct (String.eqb a EmptyString || ends_with_slash a).
  - exists a. intros b ->. reflexivity.
  - exists (a ++ "/"). intros b ->. now rewrite append_assoc.
Qed.

(** [os.path.join] keeps names apart and adds no second slash: two
    different relative names joined to the same directory give different
    paths, and a file joined to [MODEL_DIR], which ends with a slash, is
    [MODEL_DIR] followed by the file name. *)
Lemma os_path_join_names (data_path a b : string) :
  (String.prefix "/" a = false -> String.prefix "/" b = false ->
   os_path_join data_path a = os_path_join data_path b -> a = b)
  /\ (String.prefix "/" a = false ->
      os_path_join (MODEL_DIR data_path) a = MODEL_DIR data_path ++ a).
Proof.
  destruct (os_path_join_relative data_path) as [pre Hpre]. split.
  - intros Ha Hb. rewrite (Hpre a Ha), (Hpre b Hb). apply append_inj_l.
  - intros Ha. unfold MODEL_DIR. rewrite (Hpre "model/") by reflexivity.
    unfold os_path_join. rewrite Ha.
    rewrite ends_with_slash_app by discriminate.
    cbn [ends_with_slash]. now rewrite orb_true_r.
Qed.

Section WithFramework.
Context `{F : Framework}.

Lemma serve_frame (input_creator : hparams -> graph -> Iterator)
    (hp : hparams) (pb_path test_file serving_output_file : string)
    (fs : files) (path : string) :
  path <> serving_output_file ->
  (serve input_creator hp pb_path test_file serving_output_file fs).2 !! path
  = fs !! path.
Proof.
  intros Hne. unfold serve. unfold mbind at 1. unfold io_bind, read.
  destruct (fs !! pb_path) as [bytes|]; [|reflexivity].
  unfold mbind at 1. unfold io_bind, lift at 1.
  destruct (ParseFromString bytes) as [gd|e]; [|reflexivity].
  unfold mbind at 1. unfold io_bind, lift at 1.
  destruct (import_graph_def gd Graph) as [G|e]; [|reflexivity].
  unfold mbind at 1. unfold io_bind, lift at 1.
  destruct (LoadFrozedPredModel_init G) as [model|e]; [|reflexivity].
  now apply infer_as_serving_frame.
Qed.

(** X17. The serving cell leaves the other files of the notebook alone.
    Whatever [data_path] is and whether the cell returns or raises, the
    predictions of the model's own [predict] (output.txt), the test file
    and the frozen graph are what they were: serving writes to
    output_serving.txt only, so the two result files can be compared
    afterwards. *)
Theorem serving_cell_keeps_other_files
    (input_creator : hparams -> graph -> Iterator) (hp : hparams)
    (data_path : string) (fs : files) :
  (serving_cell input_creator hp data_path fs).2 !! output_file data_path
  = fs !! output_file data_path
  /\ (serving_cell input_creator hp data_path fs).2 !! test_file data_path
     = fs !! test_file data_path
  /\ (serving_cell input_creator hp data_path fs).2 !! serving_model_pb data_path
     = fs !! serving_model_pb data_path.
Proof.
  unfold serving_cell.
  destruct (os_path_join_relative data_path) as [pre Hpre].
  repeat split; apply serve_frame.
  - intros H.
    apply (proj1 (os_path_join_names data_path _ _)) in H;
      [discriminate H | reflexivity | reflexivity].
  - intros H.
    apply (proj1 (os_path_join_names data_path _ _)) in H;
      [discriminate H | reflexivity | reflexivity].
  - unfold serving_model_pb, serving_output_file.
    rewrite (proj2 (os_path_join_names data_path "serving_model.pb" "")) by reflexivity.
    unfold MODEL_DIR. rewrite !Hpre by reflexivity.
    rewrite append_assoc. intros H. apply append_inj_l in H. discriminate H.
Qed.

End WithFramework.

Lemma os_path_exists_run (path : string) (fs : files) :
  os_path_exists path fs = (Ok (bool_decide (is_Some (fs !! path))), fs).
Proof. reflexivity. Qed.

(** X18. The data cell can be run again.  If preprocessing, when it
    returns, has written the training file, then a run of the cell that
    returned is followed by runs that fetch and write nothing: the second
    run returns at once with the files unchanged. *)
Theorem prepare_data_rerun
    (download_and_extract : string -> string -> io unit)
    (data_preprocessing : list string -> nat * nat -> nat -> nat -> io unit)
    (data_path : string) (fs fs1 : files) :
  (forall fs0 fs0',
     data_preprocessing (input_files data_path) sample_rate
       valid_num_ngs test_num_ngs fs0
     = (Ok tt, fs0') ->
     is_Some (fs0' !! train_file data_path)) ->
  prepare_data download_and_extract data_preprocessing data_path fs
  = (Ok tt, fs1) ->
  prepare_data download_and_extract data_preprocessing data_path fs1
  = (Ok tt, fs1).
Proof.
  intros Hpre Hrun.
  assert (Hthere : is_Some (fs1 !! train_file data_path)).
  { unfold prepare_data in Hrun. unfold mbind at 1 in Hrun.
    unfold io_bind in Hrun. rewrite os_path_exists_run in Hrun.
    destruct (bool_decide (is_Some (fs !! train_file data_path))) eqn:Hex;
      cbn [negb] in Hrun.
    - injection Hrun as <-. now apply bool_decide_eq_true in Hex.
    - unfold mbind at 1 in Hrun. unfold io_bind in Hrun.
      destruct (download_and_extract reviews_name (reviews_file data_path) fs)
        as [[[]|e] fsa]; [|discriminate].
      unfold mbind at 1 in Hrun. unfold io_bind in Hrun.
      destruct (download_and_extract meta_name (meta_file data_path) fsa)
        as [[[]|e] fsb]; [|discriminate].
      now apply Hpre in Hrun. }
  unfold prepare_data. unfold mbind at 1. unfold io_bind.
  rewrite os_path_exists_run.
  rewrite bool_decide_eq_true_2 by exact Hthere. reflexivity.
Qed.

(** X19. The xDeepFM notebook fetches its resources once.  When the
    configuration file is there, the cell calls nothing and changes
    nothing; so if a download that returns has put the configuration file
    in place, running the cell again after a run that returned is a
    no-op. *)
Theorem prepare_resources_rerun
    (download_deeprec_resources : string -> string -> string -> io unit)
    (data_path : string) (fs fs1 : files) :
  (forall fs0 fs0',
     download_deeprec_resources
       "https://recodatasets.blob.core.windows.net/deeprec/"
       data_path "xdeepfmresources.zip" fs0 = (Ok tt, fs0') ->
     is_Some (fs0' !! xdeepfm_yaml_file data_path)) ->
  prepare_resources download_deeprec_resources data_path fs = (Ok tt, fs1) ->
  prepare_resources download_deeprec_resources data_path fs1 = (Ok tt, fs1).
Proof.
  intros Hdl Hrun.
  assert (Hthere : is_Some (fs1 !! xdeepfm_yaml_file data_path)).
  { unfold prepare_resources in Hrun. unfold mbind at 1 in Hrun.
    unfold io_bind in Hrun. rewrite os_path_exists_run in Hrun.
    destruct (bool_decide (is_Some (fs !! xdeepfm_yaml_file data_path))) eqn:Hex;
      cbn [negb] in Hrun.
    - injection Hrun as <-. now apply bool_decide_eq_true in Hex.
    - now apply Hdl in Hrun. }
  unfold prepare_resources. unfold mbind at 1. unfold io_bind.
  rewrite os_path_exists_run.
  rewrite bool_decide_eq_true_2 by exact Hthere. reflexivity.
Qed.

End NotebookFacts.

(** ** The facts above, at the demo *)

Module DemoMoreFacts.
Import Serving Notebook Demo ServingFacts ServingMoreFacts NotebookFacts.

Ltac in_list :=
  repeat first [ apply list_elem_of_here | apply list_elem_of_further ].

Ltac distinct_names :=
  repeat (apply NoDup_cons; split); try apply NoDup_nil_2;
  let H := fresh in
  intros H;
  repeat (apply elem_of_cons in H as [H|H]; [discriminate H|]);
  now apply elem_of_nil in H.


(** The second batch has items only: [KeyError], and the file of the
    earlier run stays. *)
Lemma infer_as_serving_missing_key_witness :
  infer_as_serving demo_model "test_data" "output_serving.txt" tt
    {| it_items := "items:0"; it_cates := "cates:0";
       it_item_history := "item_history:0";
       it_item_cate_history := "item_cate_history:0";
       it_mask := "mask:0";
       it_time_from_first_action := "time_from_first_action:0";
       it_time_to_now := "time_to_now:0";
       load_data_from_file := fun _ _ _ =>
         Ok [Some (full_batch 1); Some {["items:0" := 1]}; None] |}
    (@Session toy ["pred"]) demo_files
  = (Raise KeyError, demo_files).
Proof.
  apply (infer_as_serving_missing_key (F := toy))
    with (before := [Some (full_batch 1)]) (after := [None])
         (d := {["items:0" := 1]}) (ps := [Array [Array [Scalar true]]])
         (k := "cates:0").
  - reflexivity.
  - apply predictions_Forall2. vm_compute. reflexivity.
  - intros H. apply (f_equal (fun m => m !! "items:0")) in H.
    vm_compute in H. discriminate H.
  - unfold batch_keys. in_list.
  - vm_compute. reflexivity.
Defined.


Lemma feed_dict_entries_witness :
  let feed : gmap string (feed_value nat) :=
    list_to_map
      [ ("import/layer_keeps:0", Ones 3);
        ("import/is_training:0", PyBool false);
        ("import/items:0", Batch 2); ("import/cates:0", Batch 2);
        ("import/item_history:0", Batch 2);
        ("import/item_cate_history:0", Batch 2);
        ("import/mask:0", Batch 2);
        ("import/time_from_first_action:0", Batch 2);
        ("import/time_to_now:0", Batch 2) ] in
  feed !! "import/layer_keeps:0" = Some (Ones 3)
  /\ feed !! "import/pred:0" = None.
Proof.
  intros feed.
  destruct (feed_dict_entries (F := toy) demo_model (demo_iterator tt [])
              (full_batch 2) feed) as (Hk & _ & _ & _ & _ & _ & _ & _ & _ & Hout).
  - unfold fed_nodes. distinct_names.
  - vm_compute. reflexivity.
  - split; [exact Hk|]. apply Hout.
    unfold fed_nodes. cbn.
    let H := fresh in
    intros H;
    repeat (apply elem_of_cons in H as [H|H]; [discriminate H|]);
    now apply elem_of_nil in H.
Defined.


(** Downloads that write their target, preprocessing that writes the
    training file. *)
Lemma prepare_data_rerun_witness :
  let download := fun (name path : string) =>
    (fun fs : gmap string string => (Ok tt, <[path := name]> fs)) : io unit in
  let preprocess := fun (paths : list string) (_ : nat * nat) (_ _ : nat) =>
    (fun fs : gmap string string =>
       (Ok tt, <[train_file "data" := "rows"]> fs)) : io unit in
  let fs1 := (prepare_data download preprocess "data" ∅).2 in
  prepare_data download preprocess "data" fs1 = (Ok tt, fs1).
Proof.
  intros download preprocess fs1.
  apply (prepare_data_rerun download preprocess "data" ∅ fs1).
  - intros fs0 fs0' [= <-]. rewrite lookup_insert_eq. eauto.
  - vm_compute. reflexivity.
Defined.

Lemma prepare_resources_rerun_witness :
  let download := fun (url path name : string) =>
    (fun fs : gmap string string =>
       (Ok tt, <[xdeepfm_yaml_file path := name]> fs)) : io unit in
  let fs1 := (prepare_resources download "tmp" ∅).2 in
  prepare_resources download "tmp" fs1 = (Ok tt, fs1).
Proof.
  intros download fs1.
  apply (prepare_resources_rerun download "tmp" ∅ fs1).
  - intros fs0 fs0' [= <-]. rewrite lookup_insert_eq. eauto.
  - vm_compute. reflexivity.
Defined.

End DemoMoreFacts.
